(** * A shallow embedding of [main.py] (the FastAPI tutorial application)

    The handlers of [main.py] are translated one by one into functions over
    a small model of the Python values they build.  The shared list
    [fake_items_db] is threaded explicitly through the two handlers that
    touch it.  The constraints a handler declares on its parameters
    ([Body(gt=0)], [Query(min_length=3, max_length=50)], the enumeration
    [ModelName]) are checked by the endpoint wrappers before the handler
    body is entered. *)

From Stdlib Require Import ZArith List String Ascii Bool Lia.
From Stdlib Require Import PrimFloat SpecFloat FloatOps.
Import ListNotations.

Set Warnings "-inexact-float".

Local Open Scope string_scope.
Local Open Scope Z_scope.

(** ** The data model of [main.py] *)

(** [class ModelName(str, Enum)], lines 11-14. *)
Inductive ModelName : Type :=
| alexnet
| resnet
| lenet.

(** [class Item(BaseModel)], lines 48-52; [float] is the IEEE binary64
    type of Python. *)
Record Item : Type := mkItem {
  name : string;
  description : option string;
  price : float;
  tax : option float
}.

(** [class User(BaseModel)], lines 71-73. *)
Record User : Type := mkUser {
  username : string;
  full_name : option string
}.

(** ** Python values *)

Module Py.

(** The values the handlers build or compare: [None], booleans,
    integers, floats, strings, lists, dictionaries (in insertion
    order), and instances of the three classes above. *)
#[warnings="-register-all"]
Inductive val : Type :=
| VNone
| VBool (b : bool)
| VInt (n : Z)
| VFloat (x : float)
| VStr (s : string)
| VList (l : list val)
| VDict (d : list (string * val))
| VItem (i : Item)
| VUser (u : User)
| VModelName (m : ModelName).

Definition dict : Type := list (string * val).

(** Exceptions of the interpreter that no handler catches. *)
Inductive exn : Type :=
| TypeError
| IndexError.

Definition of_opt_str (o : option string) : val :=
  match o with Some s => VStr s | None => VNone end.

Definition of_opt_float (o : option float) : val :=
  match o with Some x => VFloat x | None => VNone end.

(** [bool(v)], the test an [if v:] performs. *)
Definition truthy (v : val) : bool :=
  match v with
  | VNone => false
  | VBool b => b
  | VInt n => negb (n =? 0)
  | VFloat x => negb (PrimFloat.eqb x 0%float)
  | VStr s => negb (s =? "")%string
  | VList l => match l with [] => false | _ => true end
  | VDict d => match d with [] => false | _ => true end
  | VItem _ | VUser _ => true
  | VModelName _ => true
  end.

(** [d[k]] as [d.get(k)]. *)
Fixpoint dict_get (k : string) (d : dict) : option val :=
  match d with
  | [] => None
  | (k', v) :: d' => if (k' =? k)%string then Some v else dict_get k d'
  end.

(** [d[k] = v]: an existing key keeps its position, a new key goes last. *)
Fixpoint dict_set (k : string) (v : val) (d : dict) : dict :=
  match d with
  | [] => [(k, v)]
  | (k', v') :: d' =>
      if (k' =? k)%string then (k', v) :: d' else (k', v') :: dict_set k v d'
  end.

(** [d.update(other)]. *)
Definition dict_update (d other : dict) : dict :=
  fold_left (fun acc kv => dict_set (fst kv) (snd kv) acc) other d.

(** The exact value of a float against an integer, as [float.__eq__]
    compares them: [m * 2^e = i] without rounding. *)
Definition float_eq_int (x : float) (i : Z) : bool :=
  match Prim2SF x with
  | S754_zero _ => i =? 0
  | S754_finite s m e =>
      let v := if s then Z.neg m else Z.pos m in
      if 0 <=? e then i =? v * 2 ^ e else i * 2 ^ (- e) =? v
  | S754_infinity _ | S754_nan => false
  end.

(** [i == v] for an [int] on the left: numbers compare by value, every
    other type answers [NotImplemented] on both sides and the
    comparison falls back to identity, which fails. *)
Definition int_eq (i : Z) (v : val) : bool :=
  match v with
  | VInt n => i =? n
  | VBool b => i =? (if b then 1 else 0)
  | VFloat x => float_eq_int x i
  | VNone | VStr _ | VList _ | VDict _
  | VItem _ | VUser _ | VModelName _ => false
  end.

(** [i in l] for an [int] and a list. *)
Definition int_in (i : Z) (l : list val) : bool :=
  existsb (int_eq i) l.

(** [l[key] = v] on a list: the index has to be an integer inside the
    bounds (negative ones count from the end); a [str] index raises
    [TypeError], an integer outside the bounds [IndexError]. *)
Definition list_setitem (l : list val) (key v : val) : exn + list val :=
  let at_index (i : Z) :=
    let n := Z.of_nat (List.length l) in
    let j := if i <? 0 then i + n else i in
    if (j <? 0) || (n <=? j) then inl IndexError
    else inr (firstn (Z.to_nat j) l ++ v :: skipn (S (Z.to_nat j)) l)%list in
  match key with
  | VInt i => at_index i
  | VBool b => at_index (if b then 1 else 0)
  | _ => inl TypeError
  end.

Definition is_dict (v : val) : bool :=
  match v with VDict _ => true | _ => false end.

End Py.

Import Py.

(** ** Outcomes of a call *)

(** What a request to an endpoint ends in: the handler returned a value;
    the declared constraints rejected the request before the handler was
    entered; the handler raised [HTTPException]; or an exception escaped
    the handler. *)
Inductive outcome : Type :=
| Returned (v : val)
| RequestValidationError
| HTTPException (status_code : Z) (detail : string)
| Unhandled (e : exn).

(** ** The placeholder store, lines 40-44 *)

Definition store : Type := list val.

Definition fake_items_db : store :=
  [ VDict [("item_id", VInt 0); ("item_name", VStr "Fish")];
    VDict [("item_id", VInt 1); ("item_name", VStr "Bear")];
    VDict [("item_id", VInt 2); ("item_name", VStr "Bunny")] ].

(** The identifiers the rows of a store carry in their [item_id] entry. *)
Definition store_keys (db : store) : list val :=
  flat_map (fun row =>
              match row with
              | VDict d => match dict_get "item_id" d with
                           | Some k => [k]
                           | None => []
                           end
              | _ => []
              end) db.

(** ** The handlers *)

(** [item.dict()]. *)
Definition Item_dict (item : Item) : dict :=
  [ ("name", VStr (name item));
    ("description", of_opt_str (description item));
    ("price", VFloat (price item));
    ("tax", of_opt_float (tax item)) ].

(** [jsonable_encoder(item)]: the fields of an [Item] are already
    JSON values. *)
Definition jsonable_encoder (item : Item) : val :=
  VDict (Item_dict item).

(** The text of lines 260 and 276. *)
Definition short_description : string :=
  "short is boolean and accepts '?short=1', True, true, On, on, Yes, yes as True and short=0, False, false, Off, off, No, no as False".

(** The first [read_items], lines 111-113, registered for [GET /items/]. *)
Definition read_items : val :=
  VList [VDict [("name", VStr "Katana")]].

(** [create_items], lines 122-127; [if item.tax:] is false for [None] and
    for a number that is zero. *)
Definition create_items (item : Item) : val :=
  let item_dict := Item_dict item in
  match tax item with
  | Some t =>
      if truthy (VFloat t) then
        let price_with_tax := (price item + t)%float in
        VDict (dict_update item_dict [("price_with_tax", VFloat price_with_tax)])
      else VDict item_dict
  | None => VDict item_dict
  end.

(** [create_an_item], lines 130-144. *)
Definition create_an_item (item : Item) (response_description : string) : val :=
  VItem item.

(** [create_item], lines 152-154. *)
Definition create_item (item : Item) : val :=
  VItem item.

(** The second [read_items], lines 157-162, registered for
    [GET /items_return_type/]. *)
Definition read_items_return_type : val :=
  VList [ VItem (mkItem "Portal Gun" None 42%float None);
          VItem (mkItem "Plumbus" None 32%float None) ].

(** [update_item_json], lines 164-167: the new store, or what was raised. *)
Definition update_item_json (db : store) (id : string) (item : Item)
  : outcome * store :=
  let json_compatible_item_data := jsonable_encoder item in
  match list_setitem db (VStr id) json_compatible_item_data with
  | inl e => (Unhandled e, db)
  | inr db' => (Returned VNone, db')
  end.

(** [update_item], lines 169-180. *)
Definition update_item (item_id : Z) (item : Item) (user : User)
    (importance : Z) (q : option string) : val :=
  let results :=
    [ ("item_id", VInt item_id); ("item", VItem item);
      ("user", VUser user); ("importance", VInt importance) ] in
  if truthy (of_opt_str q)
  then VDict (dict_update results [("q", of_opt_str q)])
  else VDict results.

(** [root], lines 200-202. *)
Definition root : val :=
  VDict [("message", VStr "hello World")].

(** The list both [read_item] (line 210) and [read_items] (line 239)
    answer. *)
Definition foo_bar : val :=
  VList [VDict [("item_id", VStr "Foo")]; VDict [("item_id", VStr "Bar")]].

(** The first [read_item], lines 205-213, registered for [GET /items/]
    (the name is bound a second time at line 246). *)
Definition read_item_q (q : option string) : val :=
  let results := [("items", foo_bar)] in
  if truthy (of_opt_str q)
  then VDict (dict_update results [("q", of_opt_str q)])
  else VDict results.

(** [read_item_list], lines 216-221. *)
Definition read_item_list (q : option (list string)) : val :=
  let query_items :=
    [("q", match q with Some l => VList (map VStr l) | None => VNone end)] in
  VDict query_items.

(** The third [read_items], lines 227-242, registered for
    [GET /itemtitle/]. *)
Definition read_items_itemtitle (q : option string) : val :=
  let results := [("items", foo_bar)] in
  if truthy (of_opt_str q)
  then VDict (dict_update results [("q", of_opt_str q)])
  else VDict results.

(** The second [read_item], lines 245-263, registered for
    [GET /items/{item_id}]. *)
Definition read_item (db : store) (item_id : Z) (q : option string)
    (short : bool) : outcome :=
  if negb (int_in item_id db) then HTTPException 404 "Item not found"
  else
    let item := [("item_id", VInt item_id)] in
    let item :=
      if truthy (of_opt_str q) then dict_update item [("q", of_opt_str q)]
      else item in
    let item :=
      if negb short
      then dict_update item [("description", VStr short_description)]
      else item in
    Returned (VDict item).

(** [read_user_item], lines 266-279. *)
Definition read_user_item (user_id : Z) (item_id : string)
    (q : option string) (short : bool) : val :=
  let item := [("item_id", VStr item_id); ("owner_id", VInt user_id)] in
  let item :=
    if truthy (of_opt_str q) then dict_update item [("q", of_opt_str q)]
    else item in
  let item :=
    if negb short
    then dict_update item [("description", VStr short_description)]
    else item in
  VDict item.

(** [ModelName.value]. *)
Definition ModelName_value (m : ModelName) : string :=
  match m with
  | alexnet => "alexnet"
  | resnet => "resnet"
  | lenet => "lenet"
  end.

Definition ModelName_eqb (a b : ModelName) : bool :=
  match a, b with
  | alexnet, alexnet | resnet, resnet | lenet, lenet => true
  | _, _ => false
  end.

(** [get_model], lines 282-291. *)
Definition get_model (model_name : ModelName) : val :=
  if ModelName_eqb model_name alexnet then
    VDict [("model_name", VModelName model_name);
           ("message", VStr "Deep Learning FTW!")]
  else if (ModelName_value model_name =? "lenet")%string then
    VDict [("model_name", VModelName model_name);
           ("message", VStr "LeCNN all the images")]
  else
    VDict [("model_name", VModelName model_name);
           ("message", VStr "Have some residuals")].

(** ** Endpoints: the declared constraints, then the handler

    The arguments already have the types the signatures declare; what is
    checked here are the constraints written in the signatures.  A request
    that fails one never reaches the handler. *)

(** [Body(gt=0)] on [importance], line 174. *)
Definition update_item_endpoint (item_id : Z) (item : Item) (user : User)
    (importance : Z) (q : option string) : outcome :=
  if 0 <? importance
  then Returned (update_item item_id item user importance q)
  else RequestValidationError.

(** [Query(max_length=50, min_length=3)] on [q] with the default [...]
    (required), line 207: [None] stands for a request without [q]. *)
Definition read_item_q_endpoint (q : option string) : outcome :=
  match q with
  | None => RequestValidationError
  | Some s =>
      if ((3 <=? String.length s) && (String.length s <=? 50))%nat
      then Returned (read_item_q (Some s))
      else RequestValidationError
  end.

(** [Query(min_length=3)] on [q] with the default [None], lines 229-237. *)
Definition read_items_itemtitle_endpoint (q : option string) : outcome :=
  match q with
  | None => Returned (read_items_itemtitle None)
  | Some s =>
      if (3 <=? String.length s)%nat
      then Returned (read_items_itemtitle (Some s))
      else RequestValidationError
  end.

(** [ModelName(value)]: the member whose value is the given text. *)
Definition ModelName_of_value (s : string) : option ModelName :=
  find (fun m => (ModelName_value m =? s)%string) [alexnet; resnet; lenet].

(** [model_name: ModelName], line 283. *)
Definition get_model_endpoint (model_name : string) : outcome :=
  match ModelName_of_value model_name with
  | Some m => Returned (get_model m)
  | None => RequestValidationError
  end.

(** ** The application as a transition system over the store *)

(** A call of a handler with its validated arguments. *)
Inductive call : Type :=
| call_read_items
| call_create_items (item : Item)
| call_create_an_item (item : Item) (response_description : string)
| call_create_item (item : Item)
| call_read_items_return_type
| call_update_item_json (id : string) (item : Item)
| call_update_item (item_id : Z) (item : Item) (user : User)
    (importance : Z) (q : option string)
| call_root
| call_read_item_q (q : option string)
| call_read_item_list (q : option (list string))
| call_read_items_itemtitle (q : option string)
| call_read_item (item_id : Z) (q : option string) (short : bool)
| call_read_user_item (user_id : Z) (item_id : string) (q : option string)
    (short : bool)
| call_get_model (model_name : ModelName).

(** The outcome of a call and the store it leaves. *)
Definition run (c : call) (db : store) : outcome * store :=
  match c with
  | call_read_items => (Returned read_items, db)
  | call_create_items item => (Returned (create_items item), db)
  | call_create_an_item item rd => (Returned (create_an_item item rd), db)
  | call_create_item item => (Returned (create_item item), db)
  | call_read_items_return_type => (Returned read_items_return_type, db)
  | call_update_item_json id item => update_item_json db id item
  | call_update_item item_id item user importance q =>
      (Returned (update_item item_id item user importance q), db)
  | call_root => (Returned root, db)
  | call_read_item_q q => (Returned (read_item_q q), db)
  | call_read_item_list q => (Returned (read_item_list q), db)
  | call_read_items_itemtitle q => (Returned (read_items_itemtitle q), db)
  | call_read_item item_id q short => (read_item db item_id q short, db)
  | call_read_user_item user_id item_id q short =>
      (Returned (read_user_item user_id item_id q short), db)
  | call_get_model m => (Returned (get_model m), db)
  end.

Definition is_update_item_json (c : call) : bool :=
  match c with call_update_item_json _ _ => true | _ => false end.

(** The stores the application can be in: the seed, and whatever a call
    leaves. *)
Inductive reachable : store -> Prop :=
| reachable_seed : reachable fake_items_db
| reachable_run (c : call) (db : store) :
    reachable db -> reachable (snd (run c db)).

(** ** Routing

    [main.py] registers its handlers with the decorators [@app.get],
    [@app.post] and [@app.put]; each appends one route to the router's
    list.  Which route serves a request is decided by the router of the
    framework ([starlette.routing]): [compile_path] turns a template into
    an anchored pattern where [{name}] stands for one or more characters
    other than a slash, [Route.matches] compares path and method, and
    [Router.app] walks the list in registration order. *)

Module Starlette.

Inductive method : Type := GET | POST | PUT | DELETE | PATCH | HEAD | OPTIONS.

Definition method_eqb (a b : method) : bool :=
  match a, b with
  | GET, GET | POST, POST | PUT, PUT | DELETE, DELETE
  | PATCH, PATCH | HEAD, HEAD | OPTIONS, OPTIONS => true
  | _, _ => false
  end.

(** A template is literal text interleaved with parameters. *)
Inductive piece : Type :=
| Lit (s : string)
| Param (name : string).

Definition template : Type := list piece.

Definition is_slash (c : ascii) : bool := (c =? "/")%char.

(** [s] without the leading [p], when [s] starts with [p]. *)
Fixpoint strip_prefix (p s : string) : option string :=
  match p, s with
  | EmptyString, _ => Some s
  | String a p', String b s' =>
      if (a =? b)%char then strip_prefix p' s' else None
  | String _ _, EmptyString => None
  end.

(** The longest prefix of [s] free of slashes, and what follows it: the
    text the pattern [[^/]+] consumes. *)
Fixpoint span_segment (s : string) : string * string :=
  match s with
  | EmptyString => (EmptyString, EmptyString)
  | String c s' =>
      if is_slash c then (EmptyString, s)
      else let (seg, rest) := span_segment s' in (String c seg, rest)
  end.

(** The line feed, the one character the final [$] of a pattern lets
    follow the match. *)
Definition newline : string := String "010"%char EmptyString.

(** [path_regex.match(path)] for the pattern [compile_path] builds; every
    parameter of the templates of [main.py] is followed by a slash or by
    the end of the template, so the greedy match is the only one.  The
    pattern ends in [$], which holds at the end of the path and also just
    before a line feed that ends it. *)
Fixpoint path_match (t : template) (path : string) : bool :=
  match t with
  | [] => (path =? "")%string || (path =? newline)%string
  | Lit l :: t' =>
      match strip_prefix l path with
      | Some rest => path_match t' rest
      | None => false
      end
  | Param _ :: t' =>
      let (seg, rest) := span_segment path in
      if (seg =? "")%string then false else path_match t' rest
  end.

(** The handlers of [main.py], named as in the transition system. *)
Inductive handler : Type :=
| h_read_items
| h_create_items
| h_create_an_item
| h_create_item
| h_read_items_return_type
| h_update_item_json
| h_update_item
| h_root
| h_read_item_q
| h_read_item_list
| h_read_items_itemtitle
| h_read_item
| h_read_user_item
| h_get_model.

Definition handler_eqb (a b : handler) : bool :=
  match a, b with
  | h_read_items, h_read_items
  | h_create_items, h_create_items
  | h_create_an_item, h_create_an_item
  | h_create_item, h_create_item
  | h_read_items_return_type, h_read_items_return_type
  | h_update_item_json, h_update_item_json
  | h_update_item, h_update_item
  | h_root, h_root
  | h_read_item_q, h_read_item_q
  | h_read_item_list, h_read_item_list
  | h_read_items_itemtitle, h_read_items_itemtitle
  | h_read_item, h_read_item
  | h_read_user_item, h_read_user_item
  | h_get_model, h_get_model => true
  | _, _ => false
  end.

Record route : Type := mkRoute {
  route_method : method;
  route_path : template;
  endpoint : handler
}.

Inductive Match : Type := NONE | PARTIAL | FULL.

(** [Route.matches]. *)
Definition matches (r : route) (m : method) (path : string) : Match :=
  if path_match (route_path r) path then
    if method_eqb (route_method r) m then FULL else PARTIAL
  else NONE.

Definition is_full (x : Match) : bool :=
  match x with FULL => true | _ => false end.

Definition is_none (x : Match) : bool :=
  match x with NONE => true | _ => false end.

(** What the router does with a request. *)
Inductive resolution : Type :=
| Handle (h : handler)
| MethodNotAllowed
| RedirectSlash (path : string)
| NotFound.

(** The loop of [Router.app]: the first full match is handed the
    request; the first partial match is remembered. *)
Fixpoint first_match (routes : list route) (m : method) (path : string)
    (partial : option route) : route + option route :=
  match routes with
  | [] => inr partial
  | r :: routes' =>
      match matches r m path with
      | FULL => inl r
      | PARTIAL =>
          first_match routes' m path
            (match partial with None => Some r | Some _ => partial end)
      | NONE => first_match routes' m path partial
      end
  end.

(** [path.rstrip("/")]. *)
Fixpoint rstrip_slash (s : string) : string :=
  match s with
  | EmptyString => EmptyString
  | String c s' =>
      let r := rstrip_slash s' in
      if is_slash c && (r =? "")%string then EmptyString else String c r
  end.

Fixpoint ends_with_slash (s : string) : bool :=
  match s with
  | EmptyString => false
  | String c EmptyString => is_slash c
  | String _ s' => ends_with_slash s'
  end.

(** [Router.app], with [redirect_slashes] left at its default. *)
Definition app (routes : list route) (m : method) (path : string)
  : resolution :=
  match first_match routes m path None with
  | inl r => Handle (endpoint r)
  | inr (Some _) => MethodNotAllowed
  | inr None =>
      let redirect_path :=
        if ends_with_slash path then rstrip_slash path
        else (path ++ "/")%string in
      if negb (path =? "/")%string
         && existsb (fun r => negb (is_none (matches r m redirect_path))) routes
      then RedirectSlash redirect_path
      else NotFound
  end.

(** The routes in the order [main.py] registers them (the documentation
    routes the framework adds by itself have other paths). *)
Definition routes : list route :=
  [ mkRoute GET [Lit "/items/"] h_read_items;
    mkRoute POST [Lit "/items/"] h_create_items;
    mkRoute POST [Lit "/items/"] h_create_an_item;
    mkRoute POST [Lit "/items_return_type/"] h_create_item;
    mkRoute GET [Lit "/items_return_type/"] h_read_items_return_type;
    mkRoute PUT [Lit "/items/"; Param "id"] h_update_item_json;
    mkRoute PUT [Lit "/items/"; Param "item_id"] h_update_item;
    mkRoute GET [Lit "/"] h_root;
    mkRoute GET [Lit "/items/"] h_read_item_q;
    mkRoute GET [Lit "/itemlist/"] h_read_item_list;
    mkRoute GET [Lit "/itemtitle/"] h_read_items_itemtitle;
    mkRoute GET [Lit "/items/"; Param "item_id"] h_read_item;
    mkRoute GET [Lit "/users/"; Param "user_id"; Lit "/items/";
                 Param "item_id"] h_read_user_item;
    mkRoute GET [Lit "/models/"; Param "model_name"] h_get_model ].

(** The routes that match a request in full, in registration order. *)
Definition full_matches (rs : list route) (m : method) (path : string)
  : list route :=
  filter (fun r => is_full (matches r m path)) rs.

(** The reading under which the handler registered last for a request
    serves it. *)
Definition last_registered_wins (rs : list route) : Prop :=
  forall m path r,
    (1 < List.length (full_matches rs m path))%nat ->
    last (map Some (full_matches rs m path)) None = Some r ->
    app rs m path = Handle (endpoint r).

(** The reading under which the handler registered first serves it. *)
Definition first_registered_wins (rs : list route) : Prop :=
  forall m path r,
    hd_error (full_matches rs m path) = Some r ->
    app rs m path = Handle (endpoint r).

(** A path parameter: at least one character, none of them a slash. *)
Fixpoint no_slash (s : string) : bool :=
  match s with
  | EmptyString => true
  | String c s' => negb (is_slash c) && no_slash s'
  end.

Definition is_segment (s : string) : bool :=
  negb (s =? "")%string && no_slash s.

End Starlette.

(** ** Coercion of [short: bool]

    [read_item] and [read_user_item] declare [short: bool = False]; the
    text of the query parameter is turned into a boolean by the validation
    library ([pydantic.validators.bool_validator] with its two tables). *)

Module Pydantic.

Definition BOOL_FALSE : list string := ["0"; "off"; "f"; "false"; "n"; "no"].
Definition BOOL_TRUE : list string := ["1"; "on"; "t"; "true"; "y"; "yes"].

Definition lower_char (c : ascii) : ascii :=
  let n := nat_of_ascii c in
  if ((65 <=? n) && (n <=? 90))%nat then ascii_of_nat (n + 32) else c.

(** [str.lower] on ASCII text. *)
Fixpoint lower (s : string) : string :=
  match s with
  | EmptyString => EmptyString
  | String c s' => String (lower_char c) (lower s')
  end.

Definition mem (s : string) (l : list string) : bool :=
  existsb (String.eqb s) l.

(** [bool_validator] on a [str]: [None] stands for [BoolError]. *)
Definition bool_validator (v : string) : option bool :=
  let v := lower v in
  if mem v BOOL_TRUE then Some true
  else if mem v BOOL_FALSE then Some false
  else None.

(** A coercion contract over two tables: text whose lower-case form is
    in the first is true, in the second false, and anything else is
    refused. *)
Definition contract (true_table false_table : list string) : Prop :=
  forall s,
    (In (lower s) true_table -> bool_validator s = Some true) /\
    (In (lower s) false_table -> bool_validator s = Some false) /\
    (~ In (lower s) (true_table ++ false_table) -> bool_validator s = None).

(** The two sets the specification names, and its contract. *)
Definition spec_true : list string := ["1"; "true"; "on"; "yes"].
Definition spec_false : list string := ["0"; "false"; "off"; "no"].

Definition spec_contract : Prop := contract spec_true spec_false.

End Pydantic.

(** The outcome of [GET /items/{item_id}] for the text given as [short]
    ([None]: the parameter is left out and the default [False] applies). *)
Definition read_item_endpoint (db : store) (item_id : Z) (q : option string)
    (short : option string) : outcome :=
  match short with
  | None => read_item db item_id q false
  | Some text =>
      match Pydantic.bool_validator text with
      | Some b => read_item db item_id q b
      | None => RequestValidationError
      end
  end.

(** The same for [GET /users/{user_id}/items/{item_id}]. *)
Definition read_user_item_endpoint (user_id : Z) (item_id : string)
    (q : option string) (short : option string) : outcome :=
  match short with
  | None => Returned (read_user_item user_id item_id q false)
  | Some text =>
      match Pydantic.bool_validator text with
      | Some b => Returned (read_user_item user_id item_id q b)
      | None => RequestValidationError
      end
  end.

(** ** Sample values

    The example of [Item.Config] (lines 56-63), two variants of it, and
    the user of the sample body (lines 191-194). *)

Definition foo : Item :=
  mkItem "Foo" (Some "A very nice Item") 35.4%float (Some 3.2%float).

Definition foo_untaxed : Item :=
  mkItem "Foo" (Some "A very nice Item") 35.4%float None.

Definition foo_zero_tax : Item :=
  mkItem "Foo" (Some "A very nice Item") 35.4%float (Some 0%float).

Definition dave : User := mkUser "dave" (Some "Dave Grohl").

(** The [message] entry of an answer. *)
Definition message_of (v : val) : option val :=
  match v with VDict d => dict_get "message" d | _ => None end.

(** The reading under which the answer carries [price_with_tax] whenever
    [tax] is present. *)
Definition tax_present_adds_price_with_tax : Prop :=
  forall (item : Item) (t : float),
    tax item = Some t ->
    create_items item =
      VDict (Item_dict item ++
             [("price_with_tax", VFloat (price item + t)%float)]).

(** ** Sequences of calls and the shape of answers *)

(** The outcomes of a sequence of calls, each run in the store the one
    before it left, and the final store. *)
Fixpoint run_all (cs : list call) (db : store) : list outcome * store :=
  match cs with
  | [] => ([], db)
  | c :: cs' =>
      let (o, db') := run c db in
      let (os, db'') := run_all cs' db' in
      (o :: os, db'')
  end.

Definition is_read_item (c : call) : bool :=
  match c with call_read_item _ _ _ => true | _ => false end.

(** The entry [k] of an answer that is a mapping. *)
Definition answer_get (k : string) (o : outcome) : option val :=
  match o with
  | Returned (VDict d) => dict_get k d
  | _ => None
  end.

(** What the [if q:] blocks add: nothing for an absent or empty [q]. *)
Definition q_entry (q : option string) : dict :=
  match q with
  | Some s => if (s =? "")%string then [] else [("q", VStr s)]
  | None => []
  end.

(** What the [if not short:] blocks add. *)
Definition description_entry (short : bool) : dict :=
  if short then [] else [("description", VStr short_description)].

(** The handlers no request is routed to. *)
Definition shadowed_handlers : list Starlette.handler :=
  [Starlette.h_create_an_item; Starlette.h_update_item;
   Starlette.h_read_item_q].

(** The routes of [main.py] without the three that carry those handlers. *)
Definition live_routes : list Starlette.route :=
  [ Starlette.mkRoute Starlette.GET [Starlette.Lit "/items/"]
      Starlette.h_read_items;
    Starlette.mkRoute Starlette.POST [Starlette.Lit "/items/"]
      Starlette.h_create_items;
    Starlette.mkRoute Starlette.POST [Starlette.Lit "/items_return_type/"]
      Starlette.h_create_item;
    Starlette.mkRoute Starlette.GET [Starlette.Lit "/items_return_type/"]
      Starlette.h_read_items_return_type;
    Starlette.mkRoute Starlette.PUT
      [Starlette.Lit "/items/"; Starlette.Param "id"]
      Starlette.h_update_item_json;
    Starlette.mkRoute Starlette.GET [Starlette.Lit "/"] Starlette.h_root;
    Starlette.mkRoute Starlette.GET [Starlette.Lit "/itemlist/"]
      Starlette.h_read_item_list;
    Starlette.mkRoute Starlette.GET [Starlette.Lit "/itemtitle/"]
      Starlette.h_read_items_itemtitle;
    Starlette.mkRoute Starlette.GET
      [Starlette.Lit "/items/"; Starlette.Param "item_id"]
      Starlette.h_read_item;
    Starlette.mkRoute Starlette.GET
      [Starlette.Lit "/users/"; Starlette.Param "user_id";
       Starlette.Lit "/items/"; Starlette.Param "item_id"]
      Starlette.h_read_user_item;
    Starlette.mkRoute Starlette.GET
      [Starlette.Lit "/models/"; Starlette.Param "model_name"]
      Starlette.h_get_model ].

(** ** Requests to the paths with several registrations *)

(** [update_item_json] behind its endpoint: [id] is the path segment as
    text, [item] the request body read as an [Item], [None] when the
    body does not validate as one. *)
Definition update_item_json_endpoint (db : store) (id : string)
    (item : option Item) : outcome * store :=
  match item with
  | Some it => update_item_json db id it
  | None => (RequestValidationError, db)
  end.

(** What [GET /items/] with the query parameter [q] is answered: the
    router picks among the handlers registered for that path, and the
    endpoint of the one it picks reads the request ([read_items] takes no
    parameter).  [None]: the request is handed to neither. *)
Definition GET_items (q : option string) : option outcome :=
  match Starlette.app Starlette.routes Starlette.GET "/items/" with
  | Starlette.Handle Starlette.h_read_items => Some (Returned read_items)
  | Starlette.Handle Starlette.h_read_item_q => Some (read_item_q_endpoint q)
  | _ => None
  end.

(** What [PUT /items/id] is answered.  The body is given both ways a
    handler of that path may read it: [body_item] is the body read as one
    [Item], as [update_item_json] declares it; [item], [user] and
    [importance] are its three embedded fields, as [update_item] declares
    them, with [item_id] the integer the segment [id] stands for. *)
Definition PUT_items (db : store) (id : string) (item_id : Z)
    (body_item : option Item) (item : Item) (user : User) (importance : Z)
    (q : option string) : option (outcome * store) :=
  match Starlette.app Starlette.routes Starlette.PUT ("/items/" ++ id) with
  | Starlette.Handle Starlette.h_update_item_json =>
      Some (update_item_json_endpoint db id body_item)
  | Starlette.Handle Starlette.h_update_item =>
      Some (update_item_endpoint item_id item user importance q, db)
  | _ => None
  end.

(** The reading under which every [GET /items/] request has its [q]
    checked and appended. *)
Definition GET_items_validates_q : Prop :=
  (forall q, String.length q = 2%nat ->
     GET_items (Some q) = Some RequestValidationError) /\
  (forall q, String.length q = 3%nat ->
     GET_items (Some q) =
       Some (Returned
               (VDict [("items",
                        VList [VDict [("item_id", VStr "Foo")];
                               VDict [("item_id", VStr "Bar")]]);
                       ("q", VStr q)]))).

(** The reading under which every [PUT /items/{item_id}] request has its
    [importance] checked and its fields echoed. *)
Definition PUT_items_checks_importance : Prop :=
  forall db id item_id body_item item user q,
    Starlette.is_segment id = true ->
    PUT_items db id item_id body_item item user 0 q =
      Some (RequestValidationError, db) /\
    (forall importance, 0 < importance ->
       exists d db',
         PUT_items db id item_id body_item item user importance q =
           Some (Returned (VDict d), db') /\
         dict_get "item_id" d = Some (VInt item_id) /\
         dict_get "item" d = Some (VItem item) /\
         dict_get "user" d = Some (VUser user) /\
         dict_get "importance" d = Some (VInt importance)).

(** The example item with a tax of negative zero. *)
Definition foo_negative_zero_tax : Item :=
  mkItem "Foo" (Some "A very nice Item") 35.4%float (Some (-0)%float).

(** * Properties *)

(** ** The definitions on sample inputs *)

Example truthy_empty_str : truthy (of_opt_str (Some "")) = false.
Proof. reflexivity. Qed.

Example truthy_negative_zero : truthy (VFloat (-0)%float) = false.
Proof. reflexivity. Qed.

Example truthy_nan : truthy (VFloat nan) = true.
Proof. reflexivity. Qed.

Example int_in_ints : int_in 1 [VInt 0; VInt 1] = true.
Proof. reflexivity. Qed.

Example int_in_floats : int_in 2 [VFloat 2%float; VStr "2"] = true.
Proof. reflexivity. Qed.

Example int_in_strs : int_in 2 [VStr "2"; VNone] = false.
Proof. reflexivity. Qed.

Example int_in_seed : int_in 0 fake_items_db = false.
Proof. reflexivity. Qed.

Example list_setitem_int :
  list_setitem [VInt 7; VInt 8; VInt 9] (VInt 1) VNone =
    inr [VInt 7; VNone; VInt 9].
Proof. reflexivity. Qed.

Example list_setitem_negative :
  list_setitem [VInt 7; VInt 8; VInt 9] (VInt (-1)) VNone =
    inr [VInt 7; VInt 8; VNone].
Proof. reflexivity. Qed.

Example list_setitem_out_of_range :
  list_setitem [VInt 7; VInt 8; VInt 9] (VInt 3) VNone = inl IndexError.
Proof. reflexivity. Qed.

Example list_setitem_str_index :
  list_setitem fake_items_db (VStr "1") VNone = inl TypeError.
Proof. reflexivity. Qed.

Example dict_update_existing :
  dict_update [("a", VInt 1); ("b", VInt 2)] [("a", VInt 3); ("c", VInt 4)] =
    [("a", VInt 3); ("b", VInt 2); ("c", VInt 4)].
Proof. reflexivity. Qed.

Example create_items_foo :
  create_items foo =
    VDict [("name", VStr "Foo"); ("description", VStr "A very nice Item");
           ("price", VFloat 35.4%float); ("tax", VFloat 3.2%float);
           ("price_with_tax", VFloat (35.4 + 3.2)%float)].
Proof. reflexivity. Qed.

Example create_items_foo_zero_tax :
  create_items foo_zero_tax =
    VDict [("name", VStr "Foo"); ("description", VStr "A very nice Item");
           ("price", VFloat 35.4%float); ("tax", VFloat 0%float)].
Proof. reflexivity. Qed.

Example read_user_item_short :
  read_user_item 3 "x" (Some "needle") true =
    VDict [("item_id", VStr "x"); ("owner_id", VInt 3); ("q", VStr "needle")].
Proof. reflexivity. Qed.

Example read_item_list_default :
  read_item_list (Some ["default1"; "default2"]) =
    VDict [("q", VList [VStr "default1"; VStr "default2"])].
Proof. reflexivity. Qed.

Example itemtitle_short_q :
  read_items_itemtitle_endpoint (Some "ab") = RequestValidationError.
Proof. reflexivity. Qed.

Example route_get_item :
  Starlette.app Starlette.routes Starlette.GET "/items/5" =
    Starlette.Handle Starlette.h_read_item.
Proof. reflexivity. Qed.

Example route_get_user_item :
  Starlette.app Starlette.routes Starlette.GET "/users/7/items/abc" =
    Starlette.Handle Starlette.h_read_user_item.
Proof. reflexivity. Qed.

Example route_delete_items :
  Starlette.app Starlette.routes Starlette.DELETE "/items/" =
    Starlette.MethodNotAllowed.
Proof. reflexivity. Qed.

Example route_missing_slash :
  Starlette.app Starlette.routes Starlette.GET "/itemlist" =
    Starlette.RedirectSlash "/itemlist/".
Proof. reflexivity. Qed.

Example route_unknown :
  Starlette.app Starlette.routes Starlette.GET "/nothing/here" =
    Starlette.NotFound.
Proof. reflexivity. Qed.

Example route_nested_path :
  Starlette.app Starlette.routes Starlette.GET "/items/5/6" =
    Starlette.NotFound.
Proof. reflexivity. Qed.

Example route_items_line_feed :
  Starlette.app Starlette.routes Starlette.GET
    ("/items/" ++ Starlette.newline) =
    Starlette.Handle Starlette.h_read_items.
Proof. reflexivity. Qed.

Example GET_items_ab :
  GET_items (Some "ab") =
    Some (Returned (VList [VDict [("name", VStr "Katana")]])).
Proof. reflexivity. Qed.

Example PUT_items_5 :
  PUT_items fake_items_db "5" 5 (Some foo) foo dave 1 None =
    Some (Unhandled TypeError, fake_items_db).
Proof. reflexivity. Qed.

Example bool_validator_upper :
  Pydantic.bool_validator "YES" = Some true.
Proof. reflexivity. Qed.

Example bool_validator_letter :
  Pydantic.bool_validator "t" = Some true.
Proof. reflexivity. Qed.

Example bool_validator_other :
  Pydantic.bool_validator "2" = None.
Proof. reflexivity. Qed.

Example read_item_endpoint_seed :
  read_item_endpoint fake_items_db 0 None None =
    HTTPException 404 "Item not found".
Proof. reflexivity. Qed.

(** ** Dictionaries *)

Section DictFacts.

Variables (k : string) (v : val).

Lemma dict_get_set_same (d : dict) : dict_get k (dict_set k v d) = Some v.
Proof.
  induction d as [|[k' v'] d IH]; simpl.
  - now rewrite String.eqb_refl.
  - destruct (k' =? k)%string eqn:E; simpl; now rewrite E.
Qed.

Lemma dict_get_set_other (k0 : string) (d : dict) :
  k0 <> k -> dict_get k0 (dict_set k v d) = dict_get k0 d.
Proof.
  intros Hne. induction d as [|[k' v'] d IH]; simpl.
  - destruct (k =? k0)%string eqn:E; [|reflexivity].
    apply String.eqb_eq in E. congruence.
  - destruct (k' =? k)%string eqn:E; simpl.
    + apply String.eqb_eq in E. subst k'.
      destruct (k =? k0)%string eqn:E0; [|reflexivity].
      apply String.eqb_eq in E0. congruence.
    + now rewrite IH.
Qed.

Lemma dict_set_fresh (d : dict) :
  dict_get k d = None -> dict_set k v d = (d ++ [(k, v)])%list.
Proof.
  induction d as [|[k' v'] d IH]; simpl; [reflexivity|].
  destruct (k' =? k)%string; [discriminate|].
  intros H. now rewrite IH.
Qed.

End DictFacts.

(** ** The router on the paths under [/items/] *)

Module StarletteFacts.
Import Starlette.

Lemma first_match_full (rs : list route) (m : method) (path : string)
    (r : route) :
  hd_error (full_matches rs m path) = Some r ->
  forall partial, first_match rs m path partial = inl r.
Proof.
  unfold full_matches.
  induction rs as [|r0 rs IH]; simpl; [discriminate|].
  destruct (matches r0 m path) eqn:E; simpl; intros H partial.
  - now apply IH.
  - now apply IH.
  - now inversion H.
Qed.

Lemma app_first_full (rs : list route) : first_registered_wins rs.
Proof.
  intros m path r H. unfold app.
  now rewrite (first_match_full rs m path r H None).
Qed.

Lemma span_segment_no_slash (x : string) :
  no_slash x = true -> span_segment x = (x, "").
Proof.
  induction x as [|c x IH]; simpl; [reflexivity|].
  intros H. apply andb_true_iff in H as [Hc Hx].
  apply negb_true_iff in Hc. rewrite Hc, (IH Hx). reflexivity.
Qed.

(** Both [PUT] templates match [/items/x] for every segment [x]. *)
Lemma path_match_items_param (n x : string) :
  is_segment x = true ->
  path_match [Lit "/items/"; Param n] ("/items/" ++ x) = true.
Proof.
  unfold is_segment. intros H. apply andb_true_iff in H as [Hne Hns].
  apply negb_true_iff in Hne.
  simpl. rewrite (span_segment_no_slash x Hns), Hne. reflexivity.
Qed.

(** The template [/items/] matches [/items/x] only for the segment that
    is a single line feed. *)
Lemma path_match_items_only (x : string) :
  is_segment x = true -> x <> newline ->
  path_match [Lit "/items/"] ("/items/" ++ x) = false.
Proof.
  unfold is_segment. intros H Hnl. apply andb_true_iff in H as [Hne _].
  apply negb_true_iff in Hne.
  change (path_match [Lit "/items/"] ("/items/" ++ x))
    with ((x =? "")%string || (x =? newline)%string).
  rewrite Hne. simpl. now apply String.eqb_neq.
Qed.

Lemma put_item_full_matches (x : string) :
  is_segment x = true ->
  map endpoint (full_matches routes PUT ("/items/" ++ x)) =
    [h_update_item_json; h_update_item].
Proof.
  intros H. unfold full_matches.
  rewrite (filter_ext_in
             (fun r => is_full (matches r PUT ("/items/" ++ x)))
             (fun r => handler_eqb (endpoint r) h_update_item_json
                       || handler_eqb (endpoint r) h_update_item)).
  - reflexivity.
  - intros r Hin. unfold routes in Hin. cbn [In] in Hin.
    pose proof (fun n => path_match_items_param n x H) as H1.
    repeat (destruct Hin as [<-|Hin];
            [unfold matches; cbn [route_path route_method endpoint];
             rewrite ?H1;
             try (destruct (path_match _ _)); reflexivity|]).
    contradiction.
Qed.

(** Every [PUT /items/x] is handed to [update_item_json]. *)
Lemma app_put_items_segment (x : string) :
  is_segment x = true ->
  app routes PUT ("/items/" ++ x) = Handle h_update_item_json.
Proof.
  intros Hx. pose proof (put_item_full_matches x Hx) as Hm.
  destruct (full_matches routes PUT ("/items/" ++ x)) as [|r rest] eqn:E;
    [discriminate|].
  injection Hm as Hr _.
  rewrite (app_first_full routes PUT ("/items/" ++ x) r);
    [now rewrite Hr|].
  now rewrite E.
Qed.

End StarletteFacts.

(** ** The store *)

(** No integer is found in a list whose elements are all dictionaries. *)
Lemma int_in_dicts (i : Z) (db : store) :
  forallb is_dict db = true -> int_in i db = false.
Proof.
  unfold int_in. induction db as [|x db IH]; simpl; [reflexivity|].
  intros H. apply andb_true_iff in H as [Hx Hdb].
  destruct x; try discriminate. simpl. auto.
Qed.

Lemma fake_items_db_dicts : forallb is_dict fake_items_db = true.
Proof. reflexivity. Qed.

(** Assigning through a [str] index raises, whatever the list holds. *)
Lemma list_setitem_str (l : list val) (s : string) (v : val) :
  list_setitem l (VStr s) v = inl TypeError.
Proof. reflexivity. Qed.

Lemma update_item_json_store (db : store) (id : string) (item : Item) :
  snd (update_item_json db id item) = db.
Proof. reflexivity. Qed.

Lemma run_store (c : call) (db : store) : snd (run c db) = db.
Proof. destruct c; reflexivity. Qed.

(** The store never leaves its seed. *)
Lemma reachable_seed_only (db : store) : reachable db -> db = fake_items_db.
Proof.
  induction 1 as [|c db _ IH]; [reflexivity|].
  now rewrite run_store.
Qed.

Lemma reachable_dicts (db : store) :
  reachable db -> forallb is_dict db = true.
Proof.
  intros H. rewrite (reachable_seed_only db H). apply fake_items_db_dicts.
Qed.

(** Past the membership test, [read_item] shapes its answer by [short]. *)
Lemma read_item_found (db : store) (item_id : Z) (q : option string)
    (short : bool) :
  int_in item_id db = true ->
  exists d, read_item db item_id q short = Returned (VDict d) /\
            dict_get "item_id" d = Some (VInt item_id) /\
            dict_get "description" d =
              if short then None else Some (VStr short_description).
Proof.
  intros Hin. unfold read_item. rewrite Hin. simpl.
  destruct q as [s|]; simpl.
  - destruct (s =? "")%string; destruct short; simpl;
      eexists; (split; [reflexivity|split; reflexivity]).
  - destruct short; simpl;
      eexists; (split; [reflexivity|split; reflexivity]).
Qed.

(** C1 (the code differs): the rows of the seeded store carry the
    identifiers 0, 1 and 2, and still [read_item] raises the 404
    [HTTPException] with detail "Item not found" for every [item_id],
    [q] and [short], these three identifiers included: the membership
    test compares the integer with the rows, which are dictionaries. *)
Theorem read_item_seed_always_404 :
  store_keys fake_items_db = [VInt 0; VInt 1; VInt 2] /\
  forall (item_id : Z) (q : option string) (short : bool),
    read_item fake_items_db item_id q short =
      HTTPException 404 "Item not found".
Proof.
  split; [reflexivity|].
  intros. unfold read_item.
  now rewrite (int_in_dicts item_id fake_items_db fake_items_db_dicts).
Qed.

(** C6 (the code differs): [update_item_json] raises [TypeError] for
    every path string [id] and every [Item], and leaves the store as it
    was: a list is indexed with a [str]. *)
Theorem update_item_json_raises :
  forall (db : store) (id : string) (item : Item),
    update_item_json db id item = (Unhandled TypeError, db).
Proof.
  intros db id item. unfold update_item_json.
  rewrite (list_setitem_str db id (jsonable_encoder item)).
  reflexivity.
Qed.

(** C8 (the code differs): no call changes the store, the call of
    [update_item_json] included: it raises [TypeError] at the assignment
    and leaves the store as it found it, so the one handler that is
    written to mutate [fake_items_db] does not. *)
Theorem update_item_json_call_keeps_store :
  (forall (id : string) (item : Item) (db : store),
     run (call_update_item_json id item) db = (Unhandled TypeError, db)) /\
  (forall (c : call) (db : store), snd (run c db) = db).
Proof.
  split.
  - intros id item db. simpl. unfold update_item_json.
    now rewrite (list_setitem_str db id (jsonable_encoder item)).
  - intros c db. destruct c; reflexivity.
Qed.

(** ** [create_items] *)

Lemma Item_dict_no_price_with_tax (item : Item) :
  dict_get "price_with_tax" (Item_dict item) = None.
Proof. reflexivity. Qed.

(** C3 as stated fails: an [Item] whose [tax] is present and 0 is answered
    without [price_with_tax]. *)
Lemma create_items_zero_tax_counterexample :
  ~ tax_present_adds_price_with_tax.
Proof.
  intros H. specialize (H foo_zero_tax 0%float eq_refl).
  vm_compute in H. discriminate H.
Qed.

(** C3 (amended): when [tax] is present and not zero, [create_items]
    answers the fields of the [Item] followed by [price_with_tax], equal
    to [price + tax]; when [tax] is absent the answer is the fields of
    the [Item] alone. *)
Theorem create_items_price_with_tax :
  forall item : Item,
    (forall t, tax item = Some t -> PrimFloat.eqb t 0%float = false ->
       create_items item =
         VDict (Item_dict item ++
                [("price_with_tax", VFloat (price item + t)%float)])) /\
    (tax item = None -> create_items item = VDict (Item_dict item)).
Proof.
  intros [n d p tx]. split.
  - intros t Ht Hnz. simpl in Ht. subst tx.
    unfold create_items. simpl. now rewrite Hnz.
  - intros Ht. simpl in Ht. subst tx. reflexivity.
Qed.

Lemma create_items_price_with_tax_witness :
  create_items foo =
    VDict (Item_dict foo ++
           [("price_with_tax", VFloat (price foo + 3.2)%float)]) /\
  create_items foo_untaxed = VDict (Item_dict foo_untaxed).
Proof.
  split.
  - apply (proj1 (create_items_price_with_tax foo) 3.2%float);
      reflexivity.
  - apply (proj2 (create_items_price_with_tax foo_untaxed)); reflexivity.
Defined.

(** C10: an [Item] whose [tax] is present and equal to 0 (negative
    zero is equal to 0 too) is answered with its own fields and no
    [price_with_tax]: [if item.tax:] tests the truth value of the
    number. *)
Theorem create_items_zero_tax :
  forall (item : Item) (t : float),
    tax item = Some t ->
    PrimFloat.eqb t 0%float = true ->
    create_items item = VDict (Item_dict item) /\
    dict_get "price_with_tax" (Item_dict item) = None.
Proof.
  intros [n d p tx] t Ht Hz. simpl in Ht. subst tx.
  split; [|reflexivity].
  unfold create_items. simpl. now rewrite Hz.
Qed.

Lemma create_items_zero_tax_witness :
  (create_items foo_zero_tax = VDict (Item_dict foo_zero_tax) /\
   dict_get "price_with_tax" (Item_dict foo_zero_tax) = None) /\
  (create_items foo_negative_zero_tax =
     VDict (Item_dict foo_negative_zero_tax) /\
   dict_get "price_with_tax" (Item_dict foo_negative_zero_tax) = None).
Proof.
  split.
  - apply (create_items_zero_tax foo_zero_tax 0%float); reflexivity.
  - apply (create_items_zero_tax foo_negative_zero_tax (-0)%float);
      reflexivity.
Defined.

(** ** [update_item] *)

Lemma update_item_fields (item_id : Z) (item : Item) (user : User)
    (importance : Z) (q : option string) :
  exists d,
    update_item item_id item user importance q = VDict d /\
    dict_get "item_id" d = Some (VInt item_id) /\
    dict_get "item" d = Some (VItem item) /\
    dict_get "user" d = Some (VUser user) /\
    dict_get "importance" d = Some (VInt importance).
Proof.
  unfold update_item.
  destruct (truthy (of_opt_str q)); eexists; (split; [reflexivity|]);
    repeat split; reflexivity.
Qed.

(** [update_item_json] never answers a mapping: it returns [None] or
    raises. *)
Lemma update_item_json_endpoint_no_mapping (db : store) (id : string)
    (body_item : option Item) (d : dict) (db' : store) :
  update_item_json_endpoint db id body_item <> (Returned (VDict d), db').
Proof.
  destruct body_item as [it|]; simpl; [|discriminate].
  unfold update_item_json.
  destruct (list_setitem db (VStr id) (jsonable_encoder it)); discriminate.
Qed.

(** C4 as stated fails: [PUT /items/5] with [importance = 1] is not
    answered with the echoing mapping; the router hands it to
    [update_item_json]. *)
Lemma PUT_items_checks_importance_counterexample :
  ~ PUT_items_checks_importance.
Proof.
  intros H.
  destruct (H fake_items_db "5" 5 None foo dave None eq_refl) as [_ H1].
  destruct (H1 1 eq_refl) as (d & db' & Hput & _).
  vm_compute in Hput. discriminate Hput.
Qed.

(** C4 (amended): every [PUT /items/x] request is handed to the handler
    registered first, [update_item_json], whatever its [importance], and
    is never answered with a mapping; the four-field handler
    [update_item] behind its declared constraint, which no request
    reaches, rejects [importance = 0] before the handler is entered and
    for every [importance > 0] (1 among them) answers a mapping that
    echoes [item_id], [item], [user] and [importance]. *)
Theorem PUT_items_served_by_update_item_json :
  forall (db : store) (id : string) (item_id : Z) (body_item : option Item)
         (item : Item) (user : User) (importance : Z) (q : option string),
    Starlette.is_segment id = true ->
    PUT_items db id item_id body_item item user importance q =
      Some (update_item_json_endpoint db id body_item) /\
    (forall d db',
       PUT_items db id item_id body_item item user importance q <>
         Some (Returned (VDict d), db')) /\
    update_item_endpoint item_id item user 0 q = RequestValidationError /\
    (0 < importance ->
     exists d,
       update_item_endpoint item_id item user importance q =
         Returned (VDict d) /\
       dict_get "item_id" d = Some (VInt item_id) /\
       dict_get "item" d = Some (VItem item) /\
       dict_get "user" d = Some (VUser user) /\
       dict_get "importance" d = Some (VInt importance)).
Proof.
  intros db id item_id body_item item user importance q Hseg.
  assert (Hput : PUT_items db id item_id body_item item user importance q =
                 Some (update_item_json_endpoint db id body_item)).
  { unfold PUT_items.
    now rewrite (StarletteFacts.app_put_items_segment id Hseg). }
  split; [exact Hput|]. split; [|split; [reflexivity|]].
  - intros d db' H. rewrite Hput in H. injection H as H.
    exact (update_item_json_endpoint_no_mapping db id body_item d db' H).
  - intros Hpos. unfold update_item_endpoint.
    apply Z.ltb_lt in Hpos. rewrite Hpos.
    destruct (update_item_fields item_id item user importance q)
      as (d & Hd & Hrest).
    exists d. now rewrite Hd.
Qed.

Lemma PUT_items_served_by_update_item_json_witness :
  PUT_items fake_items_db "5" 5 (Some foo) foo dave 1 None =
    Some (update_item_json_endpoint fake_items_db "5" (Some foo)) /\
  exists d,
    update_item_endpoint 5 foo dave 1 None = Returned (VDict d) /\
    dict_get "item_id" d = Some (VInt 5) /\
    dict_get "item" d = Some (VItem foo) /\
    dict_get "user" d = Some (VUser dave) /\
    dict_get "importance" d = Some (VInt 1).
Proof.
  destruct (PUT_items_served_by_update_item_json
              fake_items_db "5" 5 (Some foo) foo dave 1 None eq_refl)
    as (H1 & _ & _ & H4).
  split; [exact H1|]. apply H4. lia.
Defined.

(** ** [read_item] on [GET /items/] *)

Lemma read_item_q_appends (s : string) :
  s <> "" ->
  read_item_q (Some s) = VDict [("items", foo_bar); ("q", VStr s)].
Proof.
  intros Hs. unfold read_item_q. simpl.
  destruct (s =? "")%string eqn:E; [|reflexivity].
  apply String.eqb_eq in E. contradiction.
Qed.

(** The endpoint accepts exactly the texts of 3 to 50 characters. *)
Lemma read_item_q_endpoint_bounds (s : string) :
  read_item_q_endpoint (Some s) =
    if ((3 <=? String.length s) && (String.length s <=? 50))%nat
    then Returned (VDict [("items", foo_bar); ("q", VStr s)])
    else RequestValidationError.
Proof.
  unfold read_item_q_endpoint.
  destruct (3 <=? String.length s)%nat eqn:E; [|reflexivity].
  destruct (String.length s <=? 50)%nat; [|reflexivity]. simpl.
  rewrite read_item_q_appends; [reflexivity|].
  intros ->. discriminate E.
Qed.

Lemma read_item_q_missing : read_item_q_endpoint None = RequestValidationError.
Proof. reflexivity. Qed.

Lemma length_pos_nonempty (s : string) (n : nat) :
  String.length s = S n -> s <> "".
Proof. intros H E. subst s. discriminate. Qed.

(** C5 as stated fails: [GET /items/?q=ab] is not rejected; the router
    hands it to the [read_items] of line 112, which takes no [q]. *)
Lemma GET_items_validates_q_counterexample : ~ GET_items_validates_q.
Proof.
  intros [H _]. specialize (H "ab" eq_refl).
  vm_compute in H. discriminate H.
Qed.

(** C5 (amended): every [GET /items/] request is handed to the handler
    registered first, [read_items], which takes no [q]: whatever [q] is,
    of length 2 or 3 or absent, the answer is the one-item list with
    Katana and nothing is rejected; the constrained handler [read_item]
    of line 206 behind its declared constraints, which no request
    reaches, rejects a [q] of length 2 before the handler is entered and
    accepts a [q] of length 3, answering its two fixed items followed by
    [q]. *)
Theorem GET_items_served_by_read_items :
  (forall q : option string,
     GET_items q = Some (Returned (VList [VDict [("name", VStr "Katana")]]))) /\
  (forall s : string,
     String.length s = 2%nat ->
     read_item_q_endpoint (Some s) = RequestValidationError) /\
  (forall s : string,
     String.length s = 3%nat ->
     read_item_q_endpoint (Some s) =
       Returned
         (VDict [("items",
                  VList [VDict [("item_id", VStr "Foo")];
                         VDict [("item_id", VStr "Bar")]]);
                 ("q", VStr s)])).
Proof.
  split; [|split].
  - intros q. reflexivity.
  - intros s Hlen. unfold read_item_q_endpoint. now rewrite Hlen.
  - intros s Hlen. unfold read_item_q_endpoint. rewrite Hlen. simpl.
    now rewrite (read_item_q_appends s (length_pos_nonempty s 2 Hlen)).
Qed.

Lemma GET_items_served_by_read_items_witness :
  GET_items (Some "ab") =
    Some (Returned (VList [VDict [("name", VStr "Katana")]])) /\
  read_item_q_endpoint (Some "ab") = RequestValidationError /\
  read_item_q_endpoint (Some "abc") =
    Returned
      (VDict [("items",
               VList [VDict [("item_id", VStr "Foo")];
                      VDict [("item_id", VStr "Bar")]]);
              ("q", VStr "abc")]).
Proof.
  destruct GET_items_served_by_read_items as (H1 & H2 & H3).
  split; [apply H1|]. split.
  - apply (H2 "ab"). reflexivity.
  - apply (H3 "abc"). reflexivity.
Defined.

(** ** [get_model] *)

Lemma ModelName_of_value_value (m : ModelName) :
  ModelName_of_value (ModelName_value m) = Some m.
Proof. destruct m; reflexivity. Qed.

Lemma ModelName_of_value_other (s : string) :
  s <> "alexnet" -> s <> "resnet" -> s <> "lenet" ->
  ModelName_of_value s = None.
Proof.
  intros Ha Hr Hl. unfold ModelName_of_value. cbn [find ModelName_value].
  apply String.eqb_neq in Ha, Hr, Hl.
  rewrite (String.eqb_sym _ s), Ha, (String.eqb_sym _ s), Hr,
          (String.eqb_sym _ s), Hl.
  reflexivity.
Qed.

(** C7: [GET /models/{model_name}] answers "Deep Learning FTW!" for
    alexnet, "LeCNN all the images" for lenet and "Have some residuals"
    for resnet; any other text is rejected before [get_model] is entered;
    and the handler's message is the first for alexnet alone, the second
    for lenet alone, the third for the member that is left. *)
Theorem get_model_messages :
  get_model_endpoint "alexnet" =
    Returned (VDict [("model_name", VModelName alexnet);
                     ("message", VStr "Deep Learning FTW!")]) /\
  get_model_endpoint "lenet" =
    Returned (VDict [("model_name", VModelName lenet);
                     ("message", VStr "LeCNN all the images")]) /\
  get_model_endpoint "resnet" =
    Returned (VDict [("model_name", VModelName resnet);
                     ("message", VStr "Have some residuals")]) /\
  (forall s, s <> "alexnet" -> s <> "resnet" -> s <> "lenet" ->
             get_model_endpoint s = RequestValidationError) /\
  (forall m,
     message_of (get_model m) =
       Some (VStr (if ModelName_eqb m alexnet then "Deep Learning FTW!"
                   else if ModelName_eqb m lenet then "LeCNN all the images"
                   else "Have some residuals"))).
Proof.
  repeat split; try reflexivity.
  - intros s Ha Hr Hl. unfold get_model_endpoint.
    now rewrite (ModelName_of_value_other s Ha Hr Hl).
  - intros m. destruct m; reflexivity.
Qed.

Lemma get_model_messages_witness :
  get_model_endpoint "vgg" = RequestValidationError.
Proof.
  apply (proj1 (proj2 (proj2 (proj2 get_model_messages))) "vgg");
    discriminate.
Defined.

(** ** Routing *)


(** C2 as stated fails: [GET /items/] matches the routes of [read_items]
    (registered first) and of [read_item] (registered last), and the
    router hands it to [read_items]. *)
Lemma last_registered_wins_counterexample :
  ~ Starlette.last_registered_wins Starlette.routes.
Proof.
  intros H.
  specialize (H Starlette.GET "/items/"
                (Starlette.mkRoute Starlette.GET [Starlette.Lit "/items/"]
                   Starlette.h_read_item_q)).
  vm_compute in H.
  specialize (H (le_n 2) eq_refl). discriminate H.
Qed.

(** C2 (amended): a request that matches several registered routes is
    handed to the one registered first: [read_items] for [GET /items/],
    [create_items] for [POST /items/], and [update_item_json] for
    [PUT /items/x] (which the templates [/items/{id}] and
    [/items/{item_id}] both match), whatever the segment [x]. *)
Theorem first_registered_handler_wins :
  Starlette.first_registered_wins Starlette.routes /\
  Starlette.app Starlette.routes Starlette.GET "/items/" =
    Starlette.Handle Starlette.h_read_items /\
  Starlette.app Starlette.routes Starlette.POST "/items/" =
    Starlette.Handle Starlette.h_create_items /\
  (forall x, Starlette.is_segment x = true ->
     map Starlette.endpoint
       (Starlette.full_matches Starlette.routes Starlette.PUT ("/items/" ++ x)) =
       [Starlette.h_update_item_json; Starlette.h_update_item] /\
     Starlette.app Starlette.routes Starlette.PUT ("/items/" ++ x) =
       Starlette.Handle Starlette.h_update_item_json).
Proof.
  split; [apply StarletteFacts.app_first_full|].
  split; [reflexivity|]. split; [reflexivity|].
  intros x Hx. pose proof (StarletteFacts.put_item_full_matches x Hx) as Hm.
  split; [exact Hm|].
  destruct (Starlette.full_matches Starlette.routes Starlette.PUT
              ("/items/" ++ x)) as [|r rest] eqn:E; [discriminate|].
  injection Hm as Hr _.
  rewrite (StarletteFacts.app_first_full Starlette.routes Starlette.PUT
             ("/items/" ++ x) r); [now rewrite Hr|].
  now rewrite E.
Qed.

Lemma first_registered_handler_wins_witness :
  Starlette.app Starlette.routes Starlette.PUT "/items/5" =
    Starlette.Handle Starlette.h_update_item_json.
Proof.
  apply (proj2 (proj2 (proj2 first_registered_handler_wins)) "5").
  reflexivity.
Defined.

(** ** Coercion of [short] *)

Module PydanticFacts.
Import Pydantic.

Lemma mem_In (s : string) (l : list string) : mem s l = true <-> In s l.
Proof.
  unfold mem. rewrite existsb_exists. split.
  - intros (x & Hx & E). apply String.eqb_eq in E. now subst x.
  - intros H. exists s. split; [exact H|apply String.eqb_refl].
Qed.

Lemma mem_not_In (s : string) (l : list string) :
  mem s l = false <-> ~ In s l.
Proof.
  rewrite <- mem_In. destruct (mem s l); split; congruence.
Qed.

(** No text is in both tables. *)
Lemma tables_disjoint (s : string) :
  In s BOOL_TRUE -> mem s BOOL_FALSE = false.
Proof.
  unfold BOOL_TRUE. simpl.
  intros [H|[H|[H|[H|[H|[H|[]]]]]]]; subst s; reflexivity.
Qed.

Lemma bool_validator_true (s : string) :
  bool_validator s = Some true <-> In (lower s) BOOL_TRUE.
Proof.
  unfold bool_validator. rewrite <- mem_In.
  destruct (mem (lower s) BOOL_TRUE); [tauto|].
  destruct (mem (lower s) BOOL_FALSE); split; congruence.
Qed.

Lemma bool_validator_false (s : string) :
  bool_validator s = Some false <-> In (lower s) BOOL_FALSE.
Proof.
  unfold bool_validator. rewrite <- (mem_In _ BOOL_FALSE).
  destruct (mem (lower s) BOOL_TRUE) eqn:T.
  - apply mem_In in T. rewrite (tables_disjoint _ T). split; congruence.
  - destruct (mem (lower s) BOOL_FALSE); split; congruence.
Qed.

Lemma bool_validator_refuses (s : string) :
  bool_validator s = None <-> ~ In (lower s) (BOOL_TRUE ++ BOOL_FALSE).
Proof.
  unfold bool_validator. rewrite in_app_iff, <- !mem_In.
  destruct (mem (lower s) BOOL_TRUE); [split; [congruence|tauto]|].
  destruct (mem (lower s) BOOL_FALSE); [split; [congruence|tauto]|].
  split; [|reflexivity]. intros _ [H|H]; discriminate.
Qed.

End PydanticFacts.

(** C9 as stated fails: "t" is in neither of the two sets the
    specification names, and it is coerced to true instead of being
    refused. *)
Lemma short_coercion_counterexample : ~ Pydantic.spec_contract.
Proof.
  intros H. destruct (H "t") as (_ & _ & Hrefused).
  assert (Hout : ~ In (Pydantic.lower "t")
                      (Pydantic.spec_true ++ Pydantic.spec_false)).
  { simpl. intros Hin.
    repeat (destruct Hin as [Hin|Hin]; [discriminate Hin|]).
    exact Hin. }
  specialize (Hrefused Hout). discriminate Hrefused.
Qed.

(** C9 (amended): text whose lower-case form is one of "1", "on", "t",
    "true", "y", "yes" is coerced to true, one of "0", "off", "f",
    "false", "n", "no" to false, and every other text is refused; the
    endpoints that declare [short: bool] answer a refused text with a
    validation error without entering the handler. *)
Theorem short_coercion :
  Pydantic.contract Pydantic.BOOL_TRUE Pydantic.BOOL_FALSE /\
  (forall db item_id q text,
     Pydantic.bool_validator text = None ->
     read_item_endpoint db item_id q (Some text) = RequestValidationError) /\
  (forall user_id item_id q text,
     Pydantic.bool_validator text = None ->
     read_user_item_endpoint user_id item_id q (Some text) =
       RequestValidationError).
Proof.
  split; [|split].
  - intros s. split; [|split].
    + apply PydanticFacts.bool_validator_true.
    + apply PydanticFacts.bool_validator_false.
    + apply PydanticFacts.bool_validator_refuses.
  - intros db item_id q text H. unfold read_item_endpoint. now rewrite H.
  - intros user_id item_id q text H. unfold read_user_item_endpoint.
    now rewrite H.
Qed.

Lemma short_coercion_witness :
  Pydantic.bool_validator "TRUE" = Some true /\
  Pydantic.bool_validator "Off" = Some false /\
  Pydantic.bool_validator "maybe" = None /\
  read_user_item_endpoint 1 "a" None (Some "maybe") = RequestValidationError.
Proof.
  destruct short_coercion as (Hc & _ & Hu).
  split; [|split; [|split]].
  - apply (proj1 (Hc "TRUE")). simpl. tauto.
  - apply (proj1 (proj2 (Hc "Off"))). simpl. tauto.
  - apply (proj2 (proj2 (Hc "maybe"))). simpl. intros Hin.
    repeat (destruct Hin as [Hin|Hin]; [discriminate Hin|]). exact Hin.
  - apply Hu. reflexivity.
Defined.

(** * Further properties of the handlers *)

(** ** The shape of the answers *)

Lemma q_entry_truthy (q : option string) :
  truthy (of_opt_str q) = match q_entry q with [] => false | _ => true end.
Proof.
  destruct q as [s|]; simpl; [|reflexivity].
  now destruct (s =? "")%string.
Qed.

Lemma q_entry_update (d : dict) (q : option string) :
  dict_get "q" d = None ->
  (if truthy (of_opt_str q) then dict_update d [("q", of_opt_str q)] else d)
  = (d ++ q_entry q)%list.
Proof.
  intros Hfresh. destruct q as [s|]; simpl.
  - destruct (s =? "")%string; simpl.
    + now rewrite app_nil_r.
    + unfold dict_update. simpl. now apply dict_set_fresh.
  - now rewrite app_nil_r.
Qed.

Lemma q_entry_update_val (d : dict) (q : option string) :
  dict_get "q" d = None ->
  (if truthy (of_opt_str q)
   then VDict (dict_update d [("q", of_opt_str q)]) else VDict d)
  = VDict (d ++ q_entry q).
Proof.
  intros Hfresh. rewrite <- (q_entry_update d q Hfresh).
  now destruct (truthy (of_opt_str q)).
Qed.

(** X1: [read_user_item] answers, in this order, [item_id], [owner_id], [q]
    when it is given and not empty, and [description] unless [short]:
    none of its updates overwrites an earlier entry. *)
Theorem read_user_item_shape :
  forall (user_id : Z) (item_id : string) (q : option string) (short : bool),
    read_user_item user_id item_id q short =
      VDict ([("item_id", VStr item_id); ("owner_id", VInt user_id)]
             ++ q_entry q ++ description_entry short).
Proof.
  intros. unfold read_user_item.
  rewrite q_entry_update by reflexivity.
  destruct short; simpl.
  - now rewrite app_nil_r.
  - f_equal. unfold dict_update. simpl.
    destruct q as [s|]; simpl; [|reflexivity].
    now destruct (s =? "")%string.
Qed.

(** X2: [update_item] answers exactly [item_id], [item], [user] and
    [importance], followed by [q] when it is given and not empty; its
    endpoint lets it run exactly when [importance] is positive. *)
Theorem update_item_endpoint_shape :
  forall (item_id : Z) (item : Item) (user : User) (importance : Z)
         (q : option string),
    update_item_endpoint item_id item user importance q =
      if 0 <? importance
      then Returned
             (VDict ([("item_id", VInt item_id); ("item", VItem item);
                      ("user", VUser user); ("importance", VInt importance)]
                     ++ q_entry q))
      else RequestValidationError.
Proof.
  intros. unfold update_item_endpoint, update_item.
  destruct (0 <? importance); [|reflexivity].
  now rewrite q_entry_update_val by reflexivity.
Qed.

(** X3: [create_items] keeps every field of the [Item] as [item.dict()] has
    it, and [price_with_tax] is in the answer exactly when [tax] is a
    number other than zero (negative zero counts as zero), with the value
    [price + tax]. *)
Theorem create_items_fields :
  forall item : Item,
    exists d,
      create_items item = VDict d /\
      (forall k, k <> "price_with_tax" ->
                 dict_get k d = dict_get k (Item_dict item)) /\
      dict_get "price_with_tax" d =
        match tax item with
        | Some t => if PrimFloat.eqb t 0%float then None
                    else Some (VFloat (price item + t)%float)
        | None => None
        end.
Proof.
  intros [n d p [t|]]; unfold create_items; simpl.
  - destruct (PrimFloat.eqb t 0%float); simpl.
    + eexists. split; [reflexivity|]. split; [reflexivity|reflexivity].
    + eexists. split; [reflexivity|]. split.
      * intros k Hk. unfold dict_update. simpl.
        change (dict_get k (dict_set "price_with_tax"
                  (VFloat (p + t)%float)
                  (Item_dict (mkItem n d p (Some t)))) =
                dict_get k (Item_dict (mkItem n d p (Some t)))).
        now apply dict_get_set_other.
      * reflexivity.
  - eexists. split; [reflexivity|]. split; reflexivity.
Qed.

(** X4: the endpoint of [GET /itemtitle/] answers the two fixed items alone
    when [q] is absent, rejects a [q] shorter than 3, and otherwise (there
    is no upper bound) answers the two fixed items followed by [q]. *)
Theorem read_items_itemtitle_endpoint_shape :
  forall q : option string,
    read_items_itemtitle_endpoint q =
      match q with
      | None => Returned (VDict [("items", foo_bar)])
      | Some s =>
          if (3 <=? String.length s)%nat
          then Returned (VDict [("items", foo_bar); ("q", VStr s)])
          else RequestValidationError
      end.
Proof.
  intros [s|]; [|reflexivity].
  unfold read_items_itemtitle_endpoint, read_items_itemtitle.
  destruct (3 <=? String.length s)%nat eqn:E; [|reflexivity].
  cbv zeta. rewrite q_entry_update_val by reflexivity. simpl.
  destruct (s =? "")%string eqn:Es; [|reflexivity].
  apply String.eqb_eq in Es. subst s. discriminate E.
Qed.

(** X5: the endpoint of the constrained [GET /items/] answers exactly the
    requests whose [q] is present with 3 to 50 characters, and every
    answer carries that [q]: through the endpoint, the handler's branch
    without [q] is never taken. *)
Theorem read_item_q_endpoint_accepts :
  forall (q : option string) (v : val),
    read_item_q_endpoint q = Returned v <->
    exists s, q = Some s /\
              (3 <= String.length s <= 50)%nat /\
              v = VDict [("items", foo_bar); ("q", VStr s)].
Proof.
  intros q v. split.
  - destruct q as [s|]; [|discriminate].
    rewrite read_item_q_endpoint_bounds.
    destruct (3 <=? String.length s)%nat eqn:E1; [|discriminate].
    destruct (String.length s <=? 50)%nat eqn:E2; [|discriminate].
    simpl. intros H. injection H as <-.
    apply Nat.leb_le in E1, E2. exists s. auto.
  - intros (s & -> & [H1 H2] & ->).
    rewrite read_item_q_endpoint_bounds.
    apply Nat.leb_le in H1, H2. now rewrite H1, H2.
Qed.

(** X6: whatever the constrained [GET /items/] endpoint answers, the
    [GET /itemtitle/] endpoint answers the same to the same [q]. *)
Theorem itemtitle_extends_read_item_q :
  forall (q : option string) (v : val),
    read_item_q_endpoint q = Returned v ->
    read_items_itemtitle_endpoint q = Returned v.
Proof.
  intros [s|] v H; [|discriminate H].
  unfold read_item_q_endpoint in H. unfold read_items_itemtitle_endpoint.
  destruct (3 <=? String.length s)%nat; [|discriminate H].
  destruct (String.length s <=? 50)%nat; [|discriminate H].
  exact H.
Qed.

Lemma itemtitle_extends_read_item_q_witness :
  read_items_itemtitle_endpoint (Some "abc") =
    Returned (VDict [("items", foo_bar); ("q", VStr "abc")]).
Proof.
  apply (itemtitle_extends_read_item_q (Some "abc")). reflexivity.
Defined.

(** ** [ModelName] and [get_model] *)

(** X7: a text names a member of [ModelName] exactly when it is that member's
    value, letter for letter; the endpoint then answers with the member
    it was given and that member's message. *)
Theorem ModelName_value_round_trip :
  forall (s : string) (m : ModelName),
    (ModelName_of_value s = Some m <-> s = ModelName_value m) /\
    (s = ModelName_value m ->
       answer_get "model_name" (get_model_endpoint s) =
         Some (VModelName m) /\
       answer_get "message" (get_model_endpoint s) =
         message_of (get_model m)).
Proof.
  intros s m. split; [split|].
  - unfold ModelName_of_value. cbn [find ModelName_value].
    destruct ("alexnet" =? s)%string eqn:Ea.
    { apply String.eqb_eq in Ea. intros H. injection H as <-. now subst s. }
    destruct ("resnet" =? s)%string eqn:Er.
    { apply String.eqb_eq in Er. intros H. injection H as <-. now subst s. }
    destruct ("lenet" =? s)%string eqn:El; [|discriminate].
    apply String.eqb_eq in El. intros H. injection H as <-. now subst s.
  - intros ->. apply ModelName_of_value_value.
  - intros ->. unfold get_model_endpoint.
    rewrite ModelName_of_value_value. destruct m; split; reflexivity.
Qed.

Lemma ModelName_value_round_trip_witness :
  answer_get "model_name" (get_model_endpoint "resnet") =
    Some (VModelName resnet) /\
  answer_get "message" (get_model_endpoint "resnet") =
    message_of (get_model resnet).
Proof.
  apply (proj2 (ModelName_value_round_trip "resnet" resnet)). reflexivity.
Defined.

(** ** The store over sequences of calls *)

Lemma run_all_store (cs : list call) (db : store) :
  snd (run_all cs db) = db.
Proof.
  induction cs as [|c cs IH]; simpl; [reflexivity|].
  destruct (run c db) as [o db'] eqn:Ec.
  assert (Hdb : db' = db) by (now rewrite <- (run_store c db), Ec).
  subst db'. specialize (IH). destruct (run_all cs db) as [os db''] eqn:Ecs.
  simpl in *. exact IH.
Qed.

Lemma run_all_length (cs : list call) (db : store) :
  List.length (fst (run_all cs db)) = List.length cs.
Proof.
  revert db. induction cs as [|c cs IH]; intros db; simpl; [reflexivity|].
  destruct (run c db) as [o db'].
  specialize (IH db'). destruct (run_all cs db') as [os db''].
  simpl in *. now rewrite IH.
Qed.

Lemma run_all_nth (cs : list call) (db : store) (n : nat) (c : call) :
  nth_error cs n = Some c ->
  nth_error (fst (run_all cs db)) n = Some (fst (run c db)).
Proof.
  revert n. induction cs as [|c0 cs IH]; intros n; [now destruct n|].
  simpl. destruct (run c0 db) as [o db'] eqn:Ec.
  assert (Hdb : db' = db) by (now rewrite <- (run_store c0 db), Ec).
  subst db'. specialize (IH). destruct (run_all cs db) as [os db''] eqn:Ecs.
  destruct n as [|n]; simpl.
  - intros H. injection H as <-. now rewrite Ec.
  - intros H. specialize (IH n H). exact IH.
Qed.

(** X8: whatever sequence of calls the application serves from its seeded
    store, the store is the seed again at the end, and every call of
    [read_item] in the sequence was answered 404 "Item not found": no
    request makes an item retrievable. *)
Theorem store_never_changes :
  forall cs : list call,
    snd (run_all cs fake_items_db) = fake_items_db /\
    forall n item_id q short,
      nth_error cs n = Some (call_read_item item_id q short) ->
      nth_error (fst (run_all cs fake_items_db)) n =
        Some (HTTPException 404 "Item not found").
Proof.
  intros cs. split; [apply run_all_store|].
  intros n item_id q short H.
  rewrite (run_all_nth cs fake_items_db n _ H). simpl.
  unfold read_item.
  now rewrite (int_in_dicts item_id fake_items_db fake_items_db_dicts).
Qed.

Lemma store_never_changes_witness :
  nth_error
    (fst (run_all [call_update_item_json "0" foo; call_read_item 0 None false]
            fake_items_db)) 1 =
    Some (HTTPException 404 "Item not found").
Proof.
  apply (proj2 (store_never_changes
                  [call_update_item_json "0" foo;
                   call_read_item 0 None false]) 1%nat 0 None false).
  reflexivity.
Defined.

(** X9: on any store, [read_item] raises the 404 exactly when no element of
    the store equals the integer [item_id]; otherwise it answers
    [item_id], then [q] when given and not empty, then [description]
    unless [short]. *)
Theorem read_item_shape :
  forall (db : store) (item_id : Z) (q : option string) (short : bool),
    read_item db item_id q short =
      if int_in item_id db
      then Returned (VDict ([("item_id", VInt item_id)]
                            ++ q_entry q ++ description_entry short))
      else HTTPException 404 "Item not found".
Proof.
  intros. unfold read_item.
  destruct (int_in item_id db); [|reflexivity].
  cbv zeta. cbn [negb]. rewrite q_entry_update by reflexivity.
  destruct short; simpl.
  - now rewrite app_nil_r.
  - do 2 f_equal. unfold dict_update. simpl.
    destruct q as [s|]; simpl; [|reflexivity].
    now destruct (s =? "")%string.
Qed.

(** ** Routing of the registered handlers *)

Module RoutingFacts.
Import Starlette.

Lemma first_match_inl_inv (rs : list route) (m : method) (path : string) :
  forall partial r,
    first_match rs m path partial = inl r ->
    hd_error (full_matches rs m path) = Some r.
Proof.
  unfold full_matches.
  induction rs as [|r0 rs IH]; simpl; [discriminate|].
  intros partial r. destruct (matches r0 m path); simpl.
  - apply IH.
  - apply IH.
  - intros H. now injection H as <-.
Qed.

Lemma app_handle_inv (rs : list route) (m : method) (path : string)
    (h : handler) :
  app rs m path = Handle h ->
  exists r, hd_error (full_matches rs m path) = Some r /\ endpoint r = h.
Proof.
  unfold app. destruct (first_match rs m path None) as [r|[r|]] eqn:E.
  - intros H. injection H as <-. exists r. split; [|reflexivity].
    now apply (first_match_inl_inv rs m path None).
  - discriminate.
  - now destruct (_ && _).
Qed.

Section Filter.
Context {A : Type} (f : A -> bool).

Lemma hd_filter_In (l : list A) (x : A) :
  hd_error (filter f l) = Some x -> In x l /\ f x = true.
Proof.
  intros H. apply filter_In. destruct (filter f l); [discriminate|].
  injection H as ->. now left.
Qed.

(** An element behind one on which [f] takes the same value is never
    the first to pass the filter. *)
Lemma hd_filter_drop (pre mid post : list A) (x0 x : A) :
  f x = f x0 ->
  hd_error (filter f (pre ++ x0 :: mid ++ x :: post)) =
  hd_error (filter f (pre ++ x0 :: mid ++ post)).
Proof.
  intros E. rewrite !filter_app. cbn [filter]. rewrite !filter_app.
  cbn [filter]. rewrite E.
  destruct (f x0); [|reflexivity].
  destruct (filter f pre); reflexivity.
Qed.
End Filter.

Lemma hd_full_matches_live (m : method) (path : string) :
  hd_error (full_matches routes m path) =
  hd_error (full_matches live_routes m path).
Proof.
  unfold full_matches.
  set (f := fun r => is_full (matches r m path)).
  set (r1 := mkRoute GET [Lit "/items/"] h_read_items).
  set (r2 := mkRoute POST [Lit "/items/"] h_create_items).
  set (r3 := mkRoute POST [Lit "/items/"] h_create_an_item).
  set (r6 := mkRoute PUT [Lit "/items/"; Param "id"] h_update_item_json).
  set (r7 := mkRoute PUT [Lit "/items/"; Param "item_id"] h_update_item).
  set (r9 := mkRoute GET [Lit "/items/"] h_read_item_q).
  assert (E3 : f r3 = f r2) by reflexivity.
  assert (E7 : f r7 = f r6) by reflexivity.
  assert (E9 : f r9 = f r1) by reflexivity.
  unfold routes, live_routes.
  fold r1 r2 r3 r6 r7 r9.
  clearbody f r1 r2 r3 r6 r7 r9.
  lazymatch goal with
  | |- hd_error (filter f [r1; r2; r3; ?r4; ?r5; r6; r7; ?r8; r9; ?r10;
                           ?r11; ?r12; ?r13; ?r14]) = _ =>
      generalize r4 r5 r8 r10 r11 r12 r13 r14
  end.
  intros r4 r5 r8 r10 r11 r12 r13 r14.
  etransitivity;
    [exact (hd_filter_drop f [] [r2; r3; r4; r5; r6; r7; r8]
              [r10; r11; r12; r13; r14] r1 r9 E9)|].
  etransitivity;
    [exact (hd_filter_drop f [r1; r2; r3; r4; r5] []
              [r8; r10; r11; r12; r13; r14] r6 r7 E7)|].
  exact (hd_filter_drop f [r1] []
           [r4; r5; r6; r8; r10; r11; r12; r13; r14] r2 r3 E3).
Qed.

Lemma live_endpoints :
  map endpoint live_routes =
    [h_read_items; h_create_items; h_create_item; h_read_items_return_type;
     h_update_item_json; h_root; h_read_item_list; h_read_items_itemtitle;
     h_read_item; h_read_user_item; h_get_model].
Proof. reflexivity. Qed.

(** X10: the router hands some request to a handler exactly when the
    handler is not [create_an_item], [update_item] or the [read_item]
    registered for [GET /items/]: each of these three sits behind a route
    with the same method that matches the same paths. *)
Theorem shadowed_handlers_never_run :
  forall h : handler,
    (exists m path, app routes m path = Handle h) <->
    ~ In h shadowed_handlers.
Proof.
  intros h. split.
  - intros (m & path & H). apply app_handle_inv in H as (r & Hr & <-).
    rewrite hd_full_matches_live in Hr.
    apply hd_filter_In in Hr as [Hin _].
    apply (in_map endpoint) in Hin. rewrite live_endpoints in Hin.
    unfold shadowed_handlers. intros Hs.
    destruct (endpoint r); cbn in Hin, Hs; intuition discriminate.
  - intros Hn. destruct h.
    + exists GET, "/items/". reflexivity.
    + exists POST, "/items/". reflexivity.
    + exfalso. apply Hn. cbn. tauto.
    + exists POST, "/items_return_type/". reflexivity.
    + exists GET, "/items_return_type/". reflexivity.
    + exists PUT, "/items/1". reflexivity.
    + exfalso. apply Hn. cbn. tauto.
    + exists GET, "/". reflexivity.
    + exfalso. apply Hn. cbn. tauto.
    + exists GET, "/itemlist/". reflexivity.
    + exists GET, "/itemtitle/". reflexivity.
    + exists GET, "/items/1". reflexivity.
    + exists GET, "/users/1/items/a". reflexivity.
    + exists GET, "/models/alexnet". reflexivity.
Qed.

Lemma method_eqb_eq (a b : method) : method_eqb a b = true -> a = b.
Proof. destruct a, b; simpl; congruence. Qed.

Lemma is_full_inv (r : route) (m : method) (path : string) :
  is_full (matches r m path) = true ->
  route_method r = m /\ path_match (route_path r) path = true.
Proof.
  unfold matches. destruct (path_match (route_path r) path); [|discriminate].
  destruct (method_eqb (route_method r) m) eqn:E; [|discriminate].
  intros _. split; [now apply method_eqb_eq|reflexivity].
Qed.

Lemma app_handle_route (m : method) (path : string) (h : handler) :
  app routes m path = Handle h ->
  exists r, In r routes /\ endpoint r = h /\
            route_method r = m /\ path_match (route_path r) path = true.
Proof.
  intros H. apply app_handle_inv in H as (r & Hr & He).
  apply hd_filter_In in Hr as [Hin Hfull].
  apply is_full_inv in Hfull as [Hm Hp].
  exists r. auto.
Qed.

(** X11: a request is handed to a handler only if its method is the one
    the handler was registered with (so only GET, POST and PUT requests
    reach a handler) and its path matches the handler's own template. *)
Theorem dispatch_sound :
  forall (m : method) (path : string) (h : handler),
    app routes m path = Handle h ->
    (m = GET \/ m = POST \/ m = PUT) /\
    exists r, In r routes /\ endpoint r = h /\
              route_method r = m /\ path_match (route_path r) path = true.
Proof.
  intros m path h H.
  destruct (app_handle_route m path h H) as (r & Hin & He & Hm & Hp).
  split; [|exists r; auto].
  subst m. clear - Hin. unfold routes in Hin. cbn [In] in Hin.
  repeat (destruct Hin as [<-|Hin]; [cbn; tauto|]). contradiction.
Qed.

Lemma dispatch_sound_witness :
  (GET = GET \/ GET = POST \/ GET = PUT) /\
  exists r, In r routes /\ endpoint r = h_read_user_item /\
            route_method r = GET /\
            path_match (route_path r) "/users/7/items/abc" = true.
Proof.
  apply (dispatch_sound GET "/users/7/items/abc" h_read_user_item).
  reflexivity.
Defined.

Lemma strip_prefix_Some (p s rest : string) :
  strip_prefix p s = Some rest -> s = p ++ rest.
Proof.
  revert s. induction p as [|a p IH]; intros s; simpl.
  - intros H. now injection H as ->.
  - destruct s as [|b s]; [discriminate|].
    destruct (a =? b)%char eqn:E; [|discriminate].
    apply Ascii.eqb_eq in E. subst b. intros H. now rewrite (IH s H).
Qed.

Lemma span_segment_spec (s seg rest : string) :
  span_segment s = (seg, rest) ->
  s = seg ++ rest /\ no_slash seg = true /\ rest <> newline.
Proof.
  revert seg rest. induction s as [|c s IH]; intros seg rest; simpl.
  - intros H. injection H as <- <-. repeat split. discriminate.
  - destruct (is_slash c) eqn:E.
    + intros H. injection H as <- <-. repeat split.
      intros Hnl. injection Hnl as -> _. discriminate E.
    + destruct (span_segment s) as [seg' rest'].
      intros H. injection H as <- <-.
      destruct (IH seg' rest' eq_refl) as (-> & Hns & Hnl).
      simpl. rewrite E, Hns. auto.
Qed.

(** A template that ends in a parameter behind a literal matches exactly
    the literal followed by one segment. *)
Lemma path_match_lit_param (l n path : string) :
  path_match [Lit l; Param n] path = true <->
  exists x, path = l ++ x /\ is_segment x = true.
Proof.
  cbn [path_match]. split.
  - destruct (strip_prefix l path) as [rest|] eqn:E; [|discriminate].
    apply strip_prefix_Some in E.
    destruct (span_segment rest) as [seg rest'] eqn:Es.
    apply span_segment_spec in Es as (-> & Hns & Hnl).
    destruct (seg =? "")%string eqn:En; [discriminate|].
    intros H. apply orb_true_iff in H as [H|H];
      apply String.eqb_eq in H; [|contradiction]. subst rest'.
    exists seg. split.
    + rewrite E. f_equal. clear. induction seg; simpl; congruence.
    + unfold is_segment. now rewrite En, Hns.
  - intros (x & -> & Hx). unfold is_segment in Hx.
    apply andb_true_iff in Hx as [Hne Hns]. apply negb_true_iff in Hne.
    assert (Hp : strip_prefix l (l ++ x) = Some x).
    { clear. induction l as [|a l IH]; simpl; [reflexivity|].
      now rewrite Ascii.eqb_refl. }
    rewrite Hp, (StarletteFacts.span_segment_no_slash x Hns), Hne.
    reflexivity.
Qed.

Lemma get_item_full_matches (x : string) :
  is_segment x = true -> x <> newline ->
  full_matches routes GET ("/items/" ++ x) =
    [mkRoute GET [Lit "/items/"; Param "item_id"] h_read_item].
Proof.
  intros H Hnl. unfold full_matches.
  rewrite (filter_ext_in
             (fun r => is_full (matches r GET ("/items/" ++ x)))
             (fun r => handler_eqb (endpoint r) h_read_item)).
  - reflexivity.
  - intros r Hin. unfold routes in Hin. cbn [In] in Hin.
    pose proof (StarletteFacts.path_match_items_only x H Hnl) as H0.
    pose proof (fun n => StarletteFacts.path_match_items_param n x H) as H1.
    repeat (destruct Hin as [<-|Hin];
            [unfold matches; cbn [route_path route_method endpoint];
             rewrite ?H0, ?H1;
             try (destruct (path_match _ _)); reflexivity|]).
    contradiction.
Qed.

(** X12: a GET request is handed to the [read_item] of
    [/items/{item_id}] exactly when its path is [/items/] followed by one
    segment that is not empty, has no slash and is not a lone line feed
    (the path [/items/] followed by a line feed matches the template
    [/items/] registered before and goes to [read_items]). *)
Theorem read_item_route_paths :
  forall path : string,
    app routes GET path = Handle h_read_item <->
    exists x, path = "/items/" ++ x /\ is_segment x = true /\ x <> newline.
Proof.
  intros path. split.
  - intros H. pose proof H as H'.
    apply app_handle_route in H as (r & Hin & He & _ & Hp).
    unfold routes in Hin. cbn [In] in Hin.
    repeat (destruct Hin as [<-|Hin]; [try discriminate He|]);
      [|contradiction].
    apply path_match_lit_param in Hp as (x & -> & Hx).
    exists x. split; [reflexivity|]. split; [exact Hx|].
    intros ->. vm_compute in H'. discriminate H'.
  - intros (x & -> & Hx & Hnl).
    rewrite (StarletteFacts.app_first_full routes GET ("/items/" ++ x)
               (mkRoute GET [Lit "/items/"; Param "item_id"] h_read_item));
      [reflexivity|].
    now rewrite (get_item_full_matches x Hx Hnl).
Qed.

End RoutingFacts.

(** ** [short] from text to answer *)

Lemma read_user_item_description (user_id : Z) (item_id : string)
    (q : option string) (short : bool) :
  answer_get "description"
    (Returned (read_user_item user_id item_id q short)) =
    if short then None else Some (VStr short_description).
Proof.
  unfold read_user_item. destruct q as [s|]; simpl.
  - destruct (s =? "")%string; destruct short; reflexivity.
  - destruct short; reflexivity.
Qed.

(** X13: [read_user_item] behind its endpoint leaves [description] out
    when the text of [short] is, in any letter case, one of "1", "on",
    "t", "true", "y", "yes"; it puts [description] in when the text is one
    of "0", "off", "f", "false", "n", "no" or when [short] is not
    given. *)
Theorem read_user_item_short_text :
  forall (user_id : Z) (item_id : string) (q : option string),
    (forall text,
       In (Pydantic.lower text) Pydantic.BOOL_TRUE ->
       read_user_item_endpoint user_id item_id q (Some text) =
         Returned (read_user_item user_id item_id q true) /\
       answer_get "description"
         (read_user_item_endpoint user_id item_id q (Some text)) = None) /\
    (forall text,
       In (Pydantic.lower text) Pydantic.BOOL_FALSE ->
       answer_get "description"
         (read_user_item_endpoint user_id item_id q (Some text)) =
         Some (VStr short_description)) /\
    answer_get "description"
      (read_user_item_endpoint user_id item_id q None) =
      Some (VStr short_description).
Proof.
  intros user_id item_id q. split; [|split].
  - intros text Hin. apply PydanticFacts.bool_validator_true in Hin.
    unfold read_user_item_endpoint. rewrite Hin.
    split; [reflexivity|]. apply read_user_item_description.
  - intros text Hin. apply PydanticFacts.bool_validator_false in Hin.
    unfold read_user_item_endpoint. rewrite Hin.
    apply read_user_item_description.
  - apply (read_user_item_description user_id item_id q false).
Qed.

Lemma read_user_item_short_text_witness :
  answer_get "description"
    (read_user_item_endpoint 7 "abc" (Some "needle") (Some "Yes")) = None /\
  answer_get "description"
    (read_user_item_endpoint 7 "abc" (Some "needle") (Some "OFF")) =
    Some (VStr short_description).
Proof.
  destruct (read_user_item_short_text 7 "abc" (Some "needle"))
    as (Ht & Hf & _).
  split.
  - apply (Ht "Yes"). simpl. tauto.
  - apply (Hf "OFF"). simpl. tauto.
Defined.
